(** * vueformulate.com: the VuePress configuration and the example
      autocomplete component

    Shallow embedding of [docs/.vuepress/config.js] (site constants, sidebar,
    plugin list and the callbacks handed to the seo plugin) and of the
    [MyFormulateAutocomplete.vue] example of the "Custom input types" guide
    page (computed property [filteredOptions], methods [increment] and
    [decrement]). *)

From Stdlib Require Import ZArith Bool Ascii String List.
From stdpp Require Import base option list strings gmap.

Local Open Scope string_scope.
Local Open Scope Z_scope.

Set Warnings "-register-all".

(** ** JavaScript values, as far as the configuration touches them *)

Module Js.

(** Values read from a page's frontmatter (parsed YAML) or from the host's
    page and site objects.  Numbers are kept integral, with [VNaN] apart,
    since only their truthiness is observed.  [VDate v] stands for the object
    built by [new Date(v)]. *)
Inductive Value : Type :=
| VUndefined
| VNull
| VBool (b : bool)
| VNum (n : Z)
| VNaN
| VStr (s : string)
| VArr (items : list Value)
| VObj (fields : list (string * Value))
| VDate (src : Value).

(** ToBoolean: [false], [0], [NaN], the empty string, [null] and [undefined]
    are falsy; every object (arrays and dates included) is truthy. *)
Definition truthy (v : Value) : bool :=
  match v with
  | VUndefined | VNull | VNaN => false
  | VBool b => b
  | VNum n => negb (n =? 0)
  | VStr s => negb (String.eqb s "")
  | VArr _ | VObj _ | VDate _ => true
  end.

(** [a || b]: the left operand when it is truthy, else the right one. *)
Definition or (a b : Value) : Value := if truthy a then a else b.

(** [a && b]: the left operand when it is falsy, else the right one. *)
Definition and (a b : Value) : Value := if truthy a then b else a.

(** Property read [o.k] on an object kept as a finite map: a missing key
    reads as [undefined]. *)
Definition get (o : gmap string Value) (k : string) : Value :=
  default VUndefined (o !! k).

(** [a || b] where both sides are strings or absent, as in
    [$site.themeConfig.domain || '']. *)
Definition or_string (a : option string) (b : string) : string :=
  match a with
  | Some s => if String.eqb s "" then b else s
  | None => b
  end.

(** [Number.MAX_SAFE_INTEGER], 2^53 - 1: up to it every integer is a number
    of its own, and adding or subtracting one is exact. *)
Definition MAX_SAFE_INTEGER : Z := 2 ^ 53 - 1.

End Js.

(** ** [docs/.vuepress/config.js] *)

Module Config.

Import Js.

(** The objects the host hands to the seo callbacks.  [$page.title] is the
    title VuePress resolved for the page; [$page.frontmatter] is the parsed
    YAML block, a key it does not hold reads as [undefined];
    [$page.lastUpdated] is set by the host only when it knows the date. *)
Record Page : Type := mkPage {
  page_title : string;
  page_frontmatter : gmap string Value;
  page_lastUpdated : Value
}.

Record SiteThemeConfig : Type := mkSiteThemeConfig {
  site_author : Value;
  site_domain : option string
}.

Record Site : Type := mkSite {
  site_title : Value;
  site_themeConfig : SiteThemeConfig
}.

(** An entry of a sidebar array: either a bare path string or a group object
    whose [path], [collapsable] and [children] keys may each be left out. *)
Inductive SidebarItem : Type :=
| SidebarPath (path : string)
| SidebarGroup (title : string) (path : option string)
               (collapsable : option bool)
               (children : option (list SidebarItem)).

Record NavLink : Type := mkNavLink { text : string; link : string }.

Record Algolia : Type := mkAlgolia { apiKey : string; indexName : string }.

Record ThemeConfig : Type := mkThemeConfig {
  sidebar : list (string * list SidebarItem);
  nav : list NavLink;
  searchPlaceholder : string;
  smoothScroll : bool;
  logo : string;
  repo : string;
  docsRepo : string;
  docsDir : string;
  editLinks : bool;
  editLinkText : string;
  algolia : Algolia
}.

(** Every seo callback is called by the plugin as [f($page, $site, path)];
    a callback declared with fewer parameters ignores the rest. *)
Record SeoOptions : Type := mkSeoOptions {
  seo_title : Page -> Site -> string -> string;
  seo_image : Page -> Site -> string -> string;
  seo_siteTitle : Page -> Site -> string -> Value;
  seo_description : Page -> Site -> string -> Value;
  seo_author : Page -> Site -> string -> Value;
  seo_tags : Page -> Site -> string -> Value;
  seo_twitterCard : Page -> Site -> string -> string;
  seo_type : Page -> Site -> string -> string;
  seo_url : Page -> Site -> string -> string;
  seo_publishedAt : Page -> Site -> string -> Value;
  seo_modifiedAt : Page -> Site -> string -> Value
}.

(** A plugin entry [[name]] or [[name, options]]. *)
Inductive PluginOptions : Type :=
| NoOptions
| KeyValues (kvs : list (string * string))
| Seo (o : SeoOptions).

Record Plugin : Type := mkPlugin {
  plugin_name : string;
  plugin_options : PluginOptions
}.

Record SiteConfig : Type := mkSiteConfig {
  cfg_title : string;
  cfg_description : string;
  cfg_head : list (string * list (string * string));
  cfg_port : Z;
  cfg_themeConfig : ThemeConfig;
  cfg_plugins : list Plugin;
  cfg_dest : string
}.

(** Line 1 and line 2: the module-level constants. *)
Definition description : string :=
  "The easiest way to build forms with Vue. Built-in validation, error handling, repeatable fields, form generation & more — make complex form creation a breeze.".

Definition title : string := "Vue Formulate".

(** A sidebar leaf written as [{ title, path, collapsable: true }]. *)
Definition leaf (t p : string) : SidebarItem :=
  SidebarGroup t (Some p) (Some true) None.

(** Lines 14-112: [themeConfig.sidebar], one key, ['/guide']. *)
Definition guide_sidebar : list SidebarItem :=
  [ SidebarGroup "Guide" (Some "/guide") (Some false) (Some
      [ leaf "Installation" "/guide/installation/";
        leaf "Getting Started" "/guide/";
        leaf "Validation" "/guide/validation/";
        leaf "Plugins" "/guide/plugins/";
        leaf "Theming" "/guide/theming/";
        leaf "Internationalization" "/guide/internationalization/";
        leaf "Contributing" "/guide/contributing/" ]);
    SidebarGroup "Inputs" (Some "/guide/inputs") (Some false) (Some
      [ leaf "Configuration" "/guide/inputs/";
        leaf "Custom input types" "/guide/inputs/custom-inputs/";
        leaf "Slots" "/guide/inputs/slots/";
        SidebarGroup "Types" None (Some false) (Some
          (map SidebarPath
             [ "/guide/inputs/types/button/";
               "/guide/inputs/types/box/";
               "/guide/inputs/types/file/";
               "/guide/inputs/types/group/";
               "/guide/inputs/types/select/";
               "/guide/inputs/types/sliders/";
               "/guide/inputs/types/text/";
               "/guide/inputs/types/textarea/" ])) ]);
    SidebarGroup "Forms" (Some "/guide/forms") (Some false) (Some
      [ leaf "Using forms" "/guide/forms/";
        leaf "Error handling" "/guide/forms/error-handling/" ]) ].

(** Lines 140-152: the options of the seo plugin.  The template literal of
    [title] concatenates; [||] and [&&] are JavaScript's. *)
Definition seo : SeoOptions := {|
  seo_title := fun page _ _ => page_title page ++ " — Vue Formulate";
  seo_image := fun _ _ _ => "https://vueformulate.com/assets/img/og.jpg";
  seo_siteTitle := fun _ site _ => site_title site;
  seo_description := fun page _ _ =>
    or (get (page_frontmatter page) "description") (VStr description);
  seo_author := fun _ site _ => site_author (site_themeConfig site);
  seo_tags := fun page _ _ => get (page_frontmatter page) "tags";
  seo_twitterCard := fun _ _ _ => "summary_large_image";
  seo_type := fun _ _ _ => "article";
  seo_url := fun _ site path =>
    or_string (site_domain (site_themeConfig site)) "" ++ path;
  seo_publishedAt := fun page _ _ =>
    and (get (page_frontmatter page) "date")
        (VDate (get (page_frontmatter page) "date"));
  seo_modifiedAt := fun page _ _ =>
    and (page_lastUpdated page) (VDate (page_lastUpdated page))
|}.

(** Lines 4-155: [module.exports = ctx => ({ ... })]. *)
Definition module_exports {Ctx : Type} (ctx : Ctx) : SiteConfig := {|
  cfg_title := title;
  cfg_description := description;
  cfg_head :=
    [ ("link", [ ("rel", "apple-touch-icon"); ("sizes", "180x180");
                 ("href", "https://vueformulate.com/assets/favicon/apple-touch-icon.png") ]);
      ("script", [ ("src", "https://polyfill.io/v3/polyfill.min.js?features=es2015%2CFunction.name") ]) ];
  cfg_port := 8123;
  cfg_themeConfig := {|
    sidebar := [ ("/guide", guide_sidebar) ];
    nav := [ mkNavLink "Home" "/";
             mkNavLink "Guide" "/guide/";
             mkNavLink "Changelog" "/changelog/" ];
    searchPlaceholder := "Search...";
    smoothScroll := true;
    logo := "/assets/img/logo.png";
    repo := "wearebraid/vue-formulate";
    docsRepo := "wearebraid/vueformulate.com";
    docsDir := "docs";
    editLinks := true;
    editLinkText := "Help improve this page!";
    algolia := {| apiKey := "efde7b14d4e236e6a1ea491545e42ea0";
                  indexName := "vueformulate" |}
  |};
  cfg_plugins :=
    [ mkPlugin "live" NoOptions;
      mkPlugin "@vuepress/google-analytics" (KeyValues [ ("ga", "UA-107296601-3") ]);
      mkPlugin "seo" (Seo seo) ];
  cfg_dest := "public"
|}.

(** *** Reading the assembled object *)

Definition item_title (i : SidebarItem) : option string :=
  match i with
  | SidebarPath _ => None
  | SidebarGroup t _ _ _ => Some t
  end.

Definition item_collapsable (i : SidebarItem) : option bool :=
  match i with
  | SidebarPath _ => None
  | SidebarGroup _ _ c _ => c
  end.

(** The children sequence of an entry, empty when the key is left out. *)
Definition item_children (i : SidebarItem) : list SidebarItem :=
  match i with
  | SidebarGroup _ _ _ (Some cs) => cs
  | _ => []
  end.

(** An entry together with everything below it, in document order. *)
Fixpoint nodes (i : SidebarItem) : list SidebarItem :=
  i :: match i with
       | SidebarGroup _ _ _ (Some cs) => flat_map nodes cs
       | _ => []
       end.

(** Every entry of every sidebar of a configuration. *)
Definition sidebar_nodes (c : SiteConfig) : list SidebarItem :=
  flat_map (fun kv => flat_map nodes (snd kv)) (sidebar (cfg_themeConfig c)).

(** [themeConfig.sidebar[key]]. *)
Definition sidebar_at (c : SiteConfig) (key : string) : option (list SidebarItem) :=
  snd <$> List.find (fun kv => String.eqb (fst kv) key) (sidebar (cfg_themeConfig c)).

(** The options the configuration registers for the seo plugin. *)
Definition seo_options (c : SiteConfig) : option SeoOptions :=
  match List.find (fun p => String.eqb (plugin_name p) "seo") (cfg_plugins c) with
  | Some {| plugin_options := Seo o |} => Some o
  | _ => None
  end.

(** A page that carries nothing but a title. *)
Definition bare_page (t : string) : Page :=
  {| page_title := t; page_frontmatter := ∅; page_lastUpdated := VUndefined |}.

(** A page whose frontmatter sets [description]. *)
Definition described_page (t : string) (d : Value) : Page :=
  {| page_title := t;
     page_frontmatter := {[ "description" := d ]};
     page_lastUpdated := VUndefined |}.

(** A site object without [themeConfig.author] and [themeConfig.domain],
    as this configuration leaves it. *)
Definition plain_site : Site :=
  {| site_title := VStr title;
     site_themeConfig := {| site_author := VUndefined; site_domain := None |} |}.

(** A site object whose [themeConfig.domain] is set. *)
Definition site_at (domain : string) : Site :=
  {| site_title := VStr title;
     site_themeConfig := {| site_author := VUndefined;
                            site_domain := Some domain |} |}.

(** A page whose frontmatter sets [date]. *)
Definition dated_page (t : string) (d : Value) : Page :=
  {| page_title := t;
     page_frontmatter := {[ "date" := d ]};
     page_lastUpdated := VUndefined |}.

End Config.

(** ** The example component [MyFormulateAutocomplete.vue] *)

Module Autocomplete.

Import Js.

(** An entry of the [options] prop, [{ value, label }]. *)
Record Opt : Type := mkOpt { value : Value; label : string }.

(** The [options] prop as [Array.isArray] sees it. *)
Inductive OptionsProp : Type :=
| OptionsArray (opts : list Opt)
| OptionsOther.

(** The part of the [context] prop that the script reads.  The model of a
    text input is a string; the empty string is its only falsy value. *)
Record Context : Type := mkContext {
  model : string;
  options : OptionsProp
}.

(** The component instance: its prop and its [data ()]. *)
Record Component : Type := mkComponent {
  context : Context;
  selectedIndex : Z
}.

(** [data ()] of a fresh instance. *)
Definition data (ctx : Context) : Component :=
  {| context := ctx; selectedIndex := 0 |}.

(** [s.includes(search)]: [search] occurs in [s] at some position. *)
Fixpoint includes (s search : string) : bool :=
  if String.prefix search s then true
  else match s with
       | EmptyString => false
       | String _ rest => includes rest search
       end.

(** Lower-casing of the ASCII letters, an instance of [toLowerCase] to run
    the component on. *)
Definition lower_ascii (c : ascii) : ascii :=
  let n := nat_of_ascii c in
  if (Nat.leb 65 n && Nat.leb n 90)%bool then ascii_of_nat (n + 32) else c.

Fixpoint ascii_toLowerCase (s : string) : string :=
  match s with
  | EmptyString => EmptyString
  | String c rest => String (lower_ascii c) (ascii_toLowerCase rest)
  end.

Section Script.

(** [String.prototype.toLowerCase], a built-in of the host. *)
Variable toLowerCase : string -> string.

(** Lines 144-153. *)
Definition filteredOptions (this : Component) : list Opt :=
  match options (context this) with
  | OptionsArray opts =>
      if negb (String.eqb (model (context this)) "") then
        let isAlreadySelected :=
          List.find (fun option => String.eqb (label option) (model (context this))) opts in
        match isAlreadySelected with
        | None =>
            List.filter
              (fun option =>
                 includes (toLowerCase (label option))
                          (toLowerCase (model (context this))))
              opts
        | Some _ => []
        end
      else []
  | OptionsOther => []
  end.

(** Lines 156-163. *)
Definition increment (this : Component) : Component :=
  let length := Z.of_nat (List.length (filteredOptions this)) in
  if selectedIndex this + 1 <? length
  then {| context := context this; selectedIndex := selectedIndex this + 1 |}
  else {| context := context this; selectedIndex := 0 |}.

(** Lines 164-171. *)
Definition decrement (this : Component) : Component :=
  let length := Z.of_nat (List.length (filteredOptions this)) in
  if selectedIndex this - 1 >=? 0
  then {| context := context this; selectedIndex := selectedIndex this - 1 |}
  else {| context := context this; selectedIndex := length - 1 |}.

(** Lines 138-143.  [filteredOptions[selectedIndex]] is [undefined] for a
    negative index and for one past the end; an option object is truthy.
    [None] stands for the [false] the property then returns. *)
Definition selection (this : Component) : option Opt :=
  if selectedIndex this <? 0 then None
  else filteredOptions this !! Z.to_nat (selectedIndex this).

(** Lines 129-133: the watcher run after [context.model] has changed. *)
Definition watch_model (this : Component) : Component :=
  {| context := context this; selectedIndex := 0 |}.

(** Line 109: [@mouseenter="selectedIndex = index"], for the [index] of an
    entry of the [v-for] over [filteredOptions]. *)
Definition mouseenter (this : Component) (index : nat) : Component :=
  {| context := context this; selectedIndex := Z.of_nat index |}.

(** Lines 95 and 110: [context.model = selection.label], on Enter and on a
    click.  The result is the context after the assignment.  When
    [selection] is [false] the assigned [selection.label] is [undefined],
    which is no string: [None]. *)
Definition assign_selection (this : Component) : option Context :=
  match selection this with
  | Some option =>
      Some {| model := label option; options := options (context this) |}
  | None => None
  end.

End Script.

(** A context after the field was typed into: only the model differs. *)
Definition typed (ctx : Context) (m : string) : Context :=
  {| model := m; options := options ctx |}.

(** The options of the guide's usage example. *)
Definition users : list Opt :=
  [ mkOpt (VNum 1) "Jon Doe"; mkOpt (VNum 2) "Jane Roe";
    mkOpt (VNum 3) "Bob Foe"; mkOpt (VNum 4) "Ben Cho" ].

(** The usage example with [m] typed into the field and the index at [i]. *)
Definition searching (m : string) (i : Z) : Component :=
  {| context := mkContext m (OptionsArray users); selectedIndex := i |}.

End Autocomplete.

(** * Properties *)

Module JsFacts.

Import Js.

Lemma truthy_or (a b : Value) : truthy a = true -> or a b = a.
Proof. unfold or. now intros ->. Qed.

Lemma falsy_or (a b : Value) : truthy a = false -> or a b = b.
Proof. unfold or. now intros ->. Qed.

Lemma truthy_and (a b : Value) : truthy a = true -> and a b = b.
Proof. unfold and. now intros ->. Qed.

Lemma falsy_and (a b : Value) : truthy a = false -> and a b = a.
Proof. unfold and. now intros ->. Qed.

Lemma get_absent (o : gmap string Value) (k : string) :
  o !! k = None -> get o k = VUndefined.
Proof. unfold get. now intros ->. Qed.

Lemma get_present (o : gmap string Value) (k : string) (v : Value) :
  o !! k = Some v -> get o k = v.
Proof. unfold get. now intros ->. Qed.

Lemma get_truthy_present (o : gmap string Value) (k : string) :
  truthy (get o k) = true -> o !! k = Some (get o k).
Proof.
  unfold get. destruct (o !! k) as [v|]; simpl; [reflexivity | discriminate].
Qed.

End JsFacts.

Module ConfigSpec.

Import Js JsFacts Config.

Lemma seo_registered (Ctx : Type) (ctx : Ctx) :
  seo_options (module_exports ctx) = Some seo.
Proof. reflexivity. Qed.

Lemma guide_sidebar_registered (Ctx : Type) (ctx : Ctx) :
  sidebar_at (module_exports ctx) "/guide" = Some guide_sidebar.
Proof. reflexivity. Qed.

(** *** Metadata resolver *)

(** C1, as the spec words it, fails on a page whose frontmatter holds
    [description: ""]: the page supplies a description, the empty string,
    and the resolver answers with the site default instead of that value. *)
Lemma description_empty_string_not_verbatim :
  page_frontmatter (described_page "Slots" (VStr "")) !! "description"
    = Some (VStr "")
  /\ seo_description seo (described_page "Slots" (VStr "")) plain_site "/guide/inputs/slots/"
    = VStr description
  /\ seo_description seo (described_page "Slots" (VStr "")) plain_site "/guide/inputs/slots/"
    <> VStr "".
Proof.
  split; [| split].
  - vm_compute. reflexivity.
  - vm_compute. reflexivity.
  - vm_compute. discriminate.
Qed.

(** C1 (amended).  The description resolver returns the page-level
    description verbatim when the page supplies a truthy one (for a string:
    a non-empty one); it returns the fixed site-wide default string when the
    page supplies none, and also when the supplied value is falsy (the empty
    string, [null], [false], [0], [NaN]). *)
Theorem description_resolver (p : Page) (s : Site) (path : string) :
  (forall d, page_frontmatter p !! "description" = Some d ->
             truthy d = true ->
             seo_description seo p s path = d)
  /\ (page_frontmatter p !! "description" = None ->
      seo_description seo p s path = VStr description)
  /\ (forall d, page_frontmatter p !! "description" = Some d ->
                truthy d = false ->
                seo_description seo p s path = VStr description).
Proof.
  cbn [seo seo_description]. split; [| split].
  - intros d Hd Ht. rewrite (get_present _ _ _ Hd). now apply truthy_or.
  - intros Hd. rewrite (get_absent _ _ Hd). reflexivity.
  - intros d Hd Hf. rewrite (get_present _ _ _ Hd). now apply falsy_or.
Qed.

Lemma description_resolver_witness :
  seo_description seo (described_page "Slots" (VStr "Named slots"))
                  plain_site "/guide/inputs/slots/" = VStr "Named slots"
  /\ seo_description seo (bare_page "Slots") plain_site "/guide/inputs/slots/"
     = VStr description
  /\ seo_description seo (described_page "Slots" VNull)
                     plain_site "/guide/inputs/slots/" = VStr description.
Proof.
  split; [| split].
  - apply (proj1 (description_resolver _ _ _) (VStr "Named slots"));
      vm_compute; reflexivity.
  - apply (proj1 (proj2 (description_resolver _ _ _))); vm_compute; reflexivity.
  - apply (proj2 (proj2 (description_resolver _ _ _)) VNull);
      vm_compute; reflexivity.
Defined.

(** C2.  [publishedAt] and [modifiedAt] are dates only when the page has the
    frontmatter [date], respectively [lastUpdated], they are built from; when
    that is absent the callback yields [undefined], no date at all, and so
    no zero or epoch date. *)
Theorem timestamps_only_when_present (p : Page) (s : Site) (path : string) :
  (page_frontmatter p !! "date" = None ->
     seo_publishedAt seo p s path = VUndefined)
  /\ (page_lastUpdated p = VUndefined ->
      seo_modifiedAt seo p s path = VUndefined)
  /\ (forall d, seo_publishedAt seo p s path = VDate d ->
                page_frontmatter p !! "date" = Some d /\ truthy d = true)
  /\ (forall d, seo_modifiedAt seo p s path = VDate d ->
                page_lastUpdated p = d /\ d <> VUndefined /\ truthy d = true).
Proof.
  cbn [seo seo_publishedAt seo_modifiedAt]. split; [| split; [| split]].
  - intros Hd. rewrite (get_absent _ _ Hd). reflexivity.
  - intros ->. reflexivity.
  - intros d. unfold and.
    destruct (truthy (get (page_frontmatter p) "date")) eqn:Ht.
    + intros [= <-]. split; [now apply get_truthy_present | exact Ht].
    + intros E. rewrite E in Ht. discriminate.
  - intros d. unfold and.
    destruct (truthy (page_lastUpdated p)) eqn:Ht.
    + intros [= <-]. split; [reflexivity | split; [| exact Ht]].
      intros E. rewrite E in Ht. discriminate.
    + intros E. rewrite E in Ht. discriminate.
Qed.

Lemma timestamps_only_when_present_witness :
  seo_publishedAt seo (bare_page "Slots") plain_site "/guide/inputs/slots/" = VUndefined
  /\ seo_modifiedAt seo (bare_page "Slots") plain_site "/guide/inputs/slots/" = VUndefined.
Proof.
  destruct (timestamps_only_when_present (bare_page "Slots") plain_site
              "/guide/inputs/slots/") as (Hpub & Hmod & _).
  split; [apply Hpub | apply Hmod]; vm_compute; reflexivity.
Defined.

(** C5.  The resolved SEO title is the page's title followed by the
    separator [" — "] and the site name. *)
Theorem title_suffixed_with_site_name (p : Page) (s : Site) (path : string) :
  seo_title seo p s path = page_title p ++ " — " ++ title.
Proof. reflexivity. Qed.

(** C6.  The image resolver returns one fixed absolute URL, whatever page,
    site and path it is called with. *)
Theorem image_is_fixed (p p' : Page) (s s' : Site) (path path' : string) :
  seo_image seo p s path = "https://vueformulate.com/assets/img/og.jpg"
  /\ String.prefix "https://" (seo_image seo p s path) = true
  /\ seo_image seo p s path = seo_image seo p' s' path'.
Proof. split; [| split]; reflexivity. Qed.

(** *** Plugin registrar *)

(** C3.  The plugins of the assembled configuration are, in this order,
    live, google-analytics (registered under its scoped name
    [@vuepress/google-analytics]) and seo, and nothing else. *)
Theorem plugin_order (Ctx : Type) (ctx : Ctx) :
  map plugin_name (cfg_plugins (module_exports ctx))
  = [ "live"; "@vuepress/google-analytics"; "seo" ].
Proof. reflexivity. Qed.

(** *** Content tree *)

(** C4.  The top-level sections of the sidebar are Guide, Inputs, Forms, in
    this order. *)
Theorem top_level_sections (Ctx : Type) (ctx : Ctx) :
  map fst (sidebar (cfg_themeConfig (module_exports ctx))) = [ "/guide" ]
  /\ map item_title <$> sidebar_at (module_exports ctx) "/guide"
     = Some [ Some "Guide"; Some "Inputs"; Some "Forms" ].
Proof. split; reflexivity. Qed.

(** C7.  Every entry of the assembled sidebar that has a non-empty children
    sequence has [collapsable] set, to [true] or to [false]. *)
Theorem collapsable_set_on_parents (Ctx : Type) (ctx : Ctx) (n : SidebarItem) :
  In n (sidebar_nodes (module_exports ctx)) ->
  item_children n <> [] ->
  exists b, item_collapsable n = Some b.
Proof.
  intros Hin Hch. cbn in Hin.
  repeat (destruct Hin as [<- | Hin];
          [ first [ now elim Hch | eexists; reflexivity ] | ]).
  destruct Hin.
Qed.

Lemma collapsable_set_on_parents_witness :
  exists b,
    item_collapsable
      (SidebarGroup "Forms" (Some "/guide/forms") (Some false) (Some
         [ leaf "Using forms" "/guide/forms/";
           leaf "Error handling" "/guide/forms/error-handling/" ])) = Some b.
Proof.
  apply (collapsable_set_on_parents unit tt).
  - cbn. do 21 right. left. reflexivity.
  - discriminate.
Defined.

End ConfigSpec.

Module AutocompleteSpec.

Import Js Autocomplete.

(** *** Substring search *)

Lemma prefix_app (p s : string) :
  String.prefix p s = true <-> exists r, s = p ++ r.
Proof.
  revert s. induction p as [| c p IH]; intros s; simpl.
  - split; [intros _; now exists s | now destruct s].
  - destruct s as [| d s]; [split; [discriminate | intros [r [=]]] |].
    simpl. destruct (ascii_dec c d) as [<- | Hne].
    + split.
      * intros Hp. apply IH in Hp as [r ->]. now exists r.
      * intros [r [= ->]]. apply IH. now exists r.
    + split; [discriminate | intros [r [= E _]]; now elim Hne].
Qed.

Lemma includes_unfold (s search : string) :
  includes s search =
  if String.prefix search s then true
  else match s with
       | EmptyString => false
       | String _ rest => includes rest search
       end.
Proof. now destruct s. Qed.

Lemma includes_app (s search : string) :
  includes s search = true <-> exists a b, s = a ++ search ++ b.
Proof.
  induction s as [| c s IH]; rewrite includes_unfold;
    destruct (String.prefix search _) eqn:Hp;
    try (apply prefix_app in Hp as [r Hr]; split; [intros _ | reflexivity];
         now exists "", r).
  - split; [discriminate |]. intros (a & b & E).
    destruct a as [| ? ?]; [| discriminate E]. simpl in E.
    assert (String.prefix search "" = true) by (apply prefix_app; now exists b).
    congruence.
  - split.
    + intros Hi. apply IH in Hi as (a & b & ->). now exists (String c a), b.
    + intros (a & b & E). destruct a as [| d a]; simpl in E.
      * assert (String.prefix search (String c s) = true)
          by (apply prefix_app; now exists b).
        congruence.
      * injection E as _ ->. apply IH. now exists a, b.
Qed.

Section ScriptSpec.

Variable toLowerCase : string -> string.

(** The [find] of line 146 answers whether some label equals the model. *)
Lemma find_label_None (m : string) (opts : list Opt) :
  List.find (fun option => String.eqb (label option) m) opts = None
  <-> forall o, In o opts -> label o <> m.
Proof.
  split.
  - intros Hf o Hin. apply (find_none _ _ Hf) in Hin.
    now apply String.eqb_neq.
  - intros Hall. destruct (List.find _ opts) as [o |] eqn:Hf; [| reflexivity].
    apply find_some in Hf as [Hin Heq]. apply String.eqb_eq in Heq.
    now elim (Hall o Hin).
Qed.

(** Neither method touches the [context] prop, so the list the index runs
    over is the same before and after. *)
Lemma increment_context (this : Component) :
  context (increment toLowerCase this) = context this.
Proof. unfold increment. now destruct (_ <? _). Qed.

Lemma decrement_context (this : Component) :
  context (decrement toLowerCase this) = context this.
Proof. unfold decrement. now destruct (_ >=? _). Qed.

Lemma filteredOptions_context (this that : Component) :
  context this = context that ->
  filteredOptions toLowerCase this = filteredOptions toLowerCase that.
Proof. unfold filteredOptions. now intros ->. Qed.

(** C10.  [filteredOptions] is the empty list when the model is empty, when
    the [options] prop is not an array, and when some option's label equals
    the model (the already-selected case); in every other case it is exactly
    the options, in their order, whose lower-cased label contains the
    lower-cased model. *)
Theorem filteredOptions_cases (this : Component) :
  (model (context this) = "" -> filteredOptions toLowerCase this = [])
  /\ (options (context this) = OptionsOther ->
      filteredOptions toLowerCase this = [])
  /\ (forall opts,
        options (context this) = OptionsArray opts ->
        (exists o, In o opts /\ label o = model (context this)) ->
        filteredOptions toLowerCase this = [])
  /\ (forall opts,
        options (context this) = OptionsArray opts ->
        model (context this) <> "" ->
        (forall o, In o opts -> label o <> model (context this)) ->
        filteredOptions toLowerCase this
        = List.filter
            (fun o => includes (toLowerCase (label o))
                               (toLowerCase (model (context this))))
            opts
        /\ forall o,
             In o (filteredOptions toLowerCase this) <->
             In o opts /\
             exists a b,
               toLowerCase (label o)
               = a ++ toLowerCase (model (context this)) ++ b).
Proof.
  unfold filteredOptions.
  split; [| split; [| split]].
  - intros ->. now destruct (options (context this)).
  - now intros ->.
  - intros opts -> (o & Hin & Heq).
    destruct (negb _); [| reflexivity].
    destruct (List.find _ opts) eqn:Hf; [reflexivity |].
    now elim (proj1 (find_label_None _ _) Hf o Hin).
  - intros opts -> Hne Hall.
    apply String.eqb_neq in Hne. rewrite Hne. cbn [negb].
    rewrite (proj2 (find_label_None _ _) Hall).
    split; [reflexivity |].
    intros o. rewrite filter_In, includes_app. reflexivity.
Qed.

(** C9.  While [filteredOptions] is non-empty and [selectedIndex] lies in
    0 .. length-1, both [increment] and [decrement] leave it in that range
    (the list itself is untouched); [increment] at the last index wraps to 0
    and [decrement] at index 0 wraps to length-1. *)
Theorem selectedIndex_in_range (this : Component) (length : Z) :
  length = Z.of_nat (List.length (filteredOptions toLowerCase this)) ->
  filteredOptions toLowerCase this <> [] ->
  0 <= selectedIndex this <= length - 1 ->
  filteredOptions toLowerCase (increment toLowerCase this)
  = filteredOptions toLowerCase this
  /\ filteredOptions toLowerCase (decrement toLowerCase this)
     = filteredOptions toLowerCase this
  /\ 0 <= selectedIndex (increment toLowerCase this) <= length - 1
  /\ 0 <= selectedIndex (decrement toLowerCase this) <= length - 1
  /\ (selectedIndex this = length - 1 ->
      selectedIndex (increment toLowerCase this) = 0)
  /\ (selectedIndex this = 0 ->
      selectedIndex (decrement toLowerCase this) = length - 1).
Proof.
  intros Hlen Hne Hrange.
  split; [apply filteredOptions_context, increment_context |].
  split; [apply filteredOptions_context, decrement_context |].
  unfold increment, decrement. rewrite <- Hlen.
  destruct (Z.ltb_spec (selectedIndex this + 1) length);
    destruct (Z.geb_spec (selectedIndex this - 1) 0);
    cbn [selectedIndex]; repeat split; lia.
Qed.

End ScriptSpec.

Lemma filteredOptions_cases_witness :
  filteredOptions ascii_toLowerCase
    (data (mkContext "" (OptionsArray users))) = []
  /\ filteredOptions ascii_toLowerCase
       (data (mkContext "jo" OptionsOther)) = []
  /\ filteredOptions ascii_toLowerCase
       (data (mkContext "Bob Foe" (OptionsArray users))) = []
  /\ filteredOptions ascii_toLowerCase
       (data (mkContext "OE" (OptionsArray users)))
     = [ mkOpt (VNum 1) "Jon Doe"; mkOpt (VNum 2) "Jane Roe";
         mkOpt (VNum 3) "Bob Foe" ].
Proof.
  split; [| split; [| split]].
  - apply (proj1 (filteredOptions_cases ascii_toLowerCase _)). reflexivity.
  - apply (proj1 (proj2 (filteredOptions_cases ascii_toLowerCase _))).
    reflexivity.
  - apply (proj1 (proj2 (proj2 (filteredOptions_cases ascii_toLowerCase _)))
             users); [reflexivity |].
    exists (mkOpt (VNum 3) "Bob Foe"). split; [| reflexivity].
    cbn. tauto.
  - destruct (filteredOptions_cases ascii_toLowerCase
                (data (mkContext "OE" (OptionsArray users))))
      as (_ & _ & _ & Hfilter).
    destruct (Hfilter users) as [-> _]; [reflexivity | discriminate | | reflexivity].
    cbn. intros o [<- | [<- | [<- | [<- | []]]]]; discriminate.
Defined.

Lemma selectedIndex_in_range_witness :
  selectedIndex (increment ascii_toLowerCase
                   {| context := mkContext "OE" (OptionsArray users);
                      selectedIndex := 2 |}) = 0
  /\ selectedIndex (decrement ascii_toLowerCase
                      (data (mkContext "OE" (OptionsArray users)))) = 2.
Proof.
  split.
  - destruct (selectedIndex_in_range ascii_toLowerCase
                {| context := mkContext "OE" (OptionsArray users);
                   selectedIndex := 2 |} 3)
      as (_ & _ & _ & _ & Hwrap & _);
      [reflexivity | discriminate | cbn; lia |].
    apply Hwrap. reflexivity.
  - destruct (selectedIndex_in_range ascii_toLowerCase
                (data (mkContext "OE" (OptionsArray users))) 3)
      as (_ & _ & _ & _ & _ & Hwrap);
      [reflexivity | discriminate | cbn; lia |].
    rewrite Hwrap; reflexivity.
Defined.

End AutocompleteSpec.

(** * Further properties of the seo callbacks *)

Module SeoSpec.

Import Js JsFacts Config.

(** X1.  The resolved description is never a falsy value: whatever the page
    holds under [description], the seo plugin receives something truthy,
    the page's own value or the non-empty site default. *)
Theorem description_never_falsy (p : Page) (s : Site) (path : string) :
  truthy (seo_description seo p s path) = true.
Proof.
  cbn [seo seo_description]. unfold or.
  destruct (truthy (get (page_frontmatter p) "description")) eqn:Ht;
    [exact Ht | reflexivity].
Qed.

(** X2.  [publishedAt] and [modifiedAt] are truthy exactly when they are the
    date built from the page's value; a falsy value of the page (the empty
    string, [0], [null]) comes back as it is, not as a date. *)
Theorem timestamps_truthy_iff_date (p : Page) (s : Site) (path : string) :
  (truthy (seo_publishedAt seo p s path) = true <->
   seo_publishedAt seo p s path = VDate (get (page_frontmatter p) "date"))
  /\ (truthy (get (page_frontmatter p) "date") = false ->
      seo_publishedAt seo p s path = get (page_frontmatter p) "date")
  /\ (truthy (seo_modifiedAt seo p s path) = true <->
      seo_modifiedAt seo p s path = VDate (page_lastUpdated p))
  /\ (truthy (page_lastUpdated p) = false ->
      seo_modifiedAt seo p s path = page_lastUpdated p).
Proof.
  cbn [seo seo_publishedAt seo_modifiedAt]. unfold and.
  split; [| split; [| split]].
  - destruct (truthy (get (page_frontmatter p) "date")) eqn:Ht.
    + split; reflexivity.
    + rewrite Ht. split; [discriminate |]. intros E. rewrite E in Ht. discriminate.
  - now intros ->.
  - destruct (truthy (page_lastUpdated p)) eqn:Ht.
    + split; reflexivity.
    + rewrite Ht. split; [discriminate |]. intros E. rewrite E in Ht. discriminate.
  - now intros ->.
Qed.

Lemma timestamps_truthy_iff_date_witness :
  seo_publishedAt seo (dated_page "Slots" (VStr "")) plain_site "/guide/inputs/slots/"
  = VStr ""
  /\ seo_publishedAt seo (dated_page "Slots" (VStr "2020-05-01")) plain_site
       "/guide/inputs/slots/"
     = VDate (VStr "2020-05-01").
Proof.
  split.
  - destruct (timestamps_truthy_iff_date (dated_page "Slots" (VStr "")) plain_site
                "/guide/inputs/slots/") as (_ & Hfalsy & _).
    rewrite Hfalsy; vm_compute; reflexivity.
  - destruct (timestamps_truthy_iff_date (dated_page "Slots" (VStr "2020-05-01"))
                plain_site "/guide/inputs/slots/") as (Hdate & _).
    rewrite (proj1 Hdate); vm_compute; reflexivity.
Defined.

(** X3.  The canonical URL is the path itself when the site has no
    [themeConfig.domain] or an empty one, and the domain followed by the
    path otherwise; in every case it ends with the path. *)
Theorem url_prefixes_domain (p : Page) (s : Site) (path : string) :
  (site_domain (site_themeConfig s) = None -> seo_url seo p s path = path)
  /\ (site_domain (site_themeConfig s) = Some "" -> seo_url seo p s path = path)
  /\ (forall d, site_domain (site_themeConfig s) = Some d -> d <> "" ->
                seo_url seo p s path = d ++ path)
  /\ exists origin, seo_url seo p s path = origin ++ path.
Proof.
  cbn [seo seo_url]. split; [| split; [| split]].
  - now intros ->.
  - now intros ->.
  - intros d -> Hd. apply String.eqb_neq in Hd. cbn [or_string]. now rewrite Hd.
  - now eexists.
Qed.

Lemma url_prefixes_domain_witness :
  seo_url seo (bare_page "Slots") plain_site "/guide/inputs/slots/"
  = "/guide/inputs/slots/"
  /\ seo_url seo (bare_page "Slots") (site_at "") "/guide/inputs/slots/"
     = "/guide/inputs/slots/"
  /\ seo_url seo (bare_page "Slots") (site_at "https://vueformulate.com")
       "/guide/inputs/slots/"
     = "https://vueformulate.com/guide/inputs/slots/".
Proof.
  split; [| split].
  - apply (proj1 (url_prefixes_domain _ _ _)). reflexivity.
  - apply (proj1 (proj2 (url_prefixes_domain _ _ _))). reflexivity.
  - apply (proj1 (proj2 (proj2 (url_prefixes_domain _ (site_at _) _)))
             "https://vueformulate.com"); [reflexivity | discriminate].
Defined.

End SeoSpec.

(** * Further properties of the autocomplete component *)

Module ComponentSpec.

Import Js Autocomplete AutocompleteSpec.

Lemma filter_sublist {A : Type} (f : A -> bool) (l : list A) :
  sublist (List.filter f l) l.
Proof.
  induction l as [| x l IH]; simpl; [constructor |].
  destruct (f x); now constructor.
Qed.

Lemma app_empty_r (s : string) : s ++ "" = s.
Proof.
  induction s as [| c s IH]; [reflexivity |].
  change (String c (s ++ "") = String c s). now rewrite IH.
Qed.

Lemma component_ext (this that : Component) :
  context this = context that ->
  selectedIndex this = selectedIndex that ->
  this = that.
Proof. destruct this, that. cbn. now intros -> ->. Qed.

Section ComponentProps.

Variable toLowerCase : string -> string.

(** What a non-empty [filteredOptions] tells about the context. *)
Lemma filteredOptions_inv (this : Component) (o : Opt) :
  In o (filteredOptions toLowerCase this) ->
  exists opts,
    options (context this) = OptionsArray opts
    /\ model (context this) <> ""
    /\ (forall o', In o' opts -> label o' <> model (context this))
    /\ filteredOptions toLowerCase this
       = List.filter
           (fun o' => includes (toLowerCase (label o'))
                               (toLowerCase (model (context this))))
           opts.
Proof.
  unfold filteredOptions.
  destruct (options (context this)) as [opts |]; [| intros []].
  destruct (String.eqb (model (context this)) "") eqn:Hm; [intros [] |].
  cbn [negb].
  destruct (List.find _ opts) eqn:Hf; [intros [] |]. intros _.
  exists opts. repeat split.
  - now apply String.eqb_neq.
  - now apply find_label_None.
Qed.

(** The filter of line 149 in a context known to reach it. *)
Lemma filteredOptions_filter (this : Component) (opts : list Opt) :
  options (context this) = OptionsArray opts ->
  model (context this) <> "" ->
  (forall o, In o opts -> label o <> model (context this)) ->
  filteredOptions toLowerCase this
  = List.filter
      (fun o => includes (toLowerCase (label o))
                         (toLowerCase (model (context this))))
      opts.
Proof.
  intros Ho Hm Hall. unfold filteredOptions. rewrite Ho.
  apply String.eqb_neq in Hm. rewrite Hm. cbn [negb].
  now rewrite (proj2 (find_label_None _ _) Hall).
Qed.

Lemma increment_index (this : Component) :
  selectedIndex (increment toLowerCase this)
  = if selectedIndex this + 1
       <? Z.of_nat (List.length (filteredOptions toLowerCase this))
    then selectedIndex this + 1 else 0.
Proof. unfold increment. now destruct (_ <? _). Qed.

Lemma decrement_index (this : Component) :
  selectedIndex (decrement toLowerCase this)
  = if selectedIndex this - 1 >=? 0
    then selectedIndex this - 1
    else Z.of_nat (List.length (filteredOptions toLowerCase this)) - 1.
Proof. unfold decrement. now destruct (_ >=? _). Qed.

Lemma selection_lookup (this : Component) (o : Opt) :
  selection toLowerCase this = Some o <->
  0 <= selectedIndex this
  /\ filteredOptions toLowerCase this !! Z.to_nat (selectedIndex this) = Some o.
Proof.
  unfold selection. destruct (Z.ltb_spec (selectedIndex this) 0).
  - split; [discriminate | lia].
  - split; [now intros -> | now intros [_ ->]].
Qed.

Lemma selection_in_range (this : Component) :
  0 <= selectedIndex this
       < Z.of_nat (List.length (filteredOptions toLowerCase this)) ->
  is_Some (selection toLowerCase this).
Proof.
  intros Hr. unfold selection.
  destruct (Z.ltb_spec (selectedIndex this) 0); [lia |].
  apply lookup_lt_is_Some. lia.
Qed.

Lemma selection_out_of_range (this : Component) :
  selectedIndex this < 0
  \/ Z.of_nat (List.length (filteredOptions toLowerCase this))
     <= selectedIndex this ->
  selection toLowerCase this = None.
Proof.
  intros Hr. unfold selection.
  destruct (Z.ltb_spec (selectedIndex this) 0); [reflexivity |].
  apply lookup_ge_None. lia.
Qed.

(** *** The list of matches *)

(** X5.  [filteredOptions] offers options of the [options] prop only, each at
    most once per occurrence and in the order of the prop; it is never
    longer than the prop. *)
Theorem filteredOptions_sublist (this : Component) (opts : list Opt) :
  options (context this) = OptionsArray opts ->
  sublist (filteredOptions toLowerCase this) opts
  /\ (List.length (filteredOptions toLowerCase this) <= List.length opts)%nat.
Proof.
  intros Ho.
  assert (Hsub : sublist (filteredOptions toLowerCase this) opts).
  { unfold filteredOptions. rewrite Ho.
    destruct (negb _); [| apply sublist_nil_l].
    destruct (List.find _ opts); [apply sublist_nil_l | apply filter_sublist]. }
  split; [exact Hsub | now apply sublist_length].
Qed.

(** X6.  No offered option has the model as its label, and nothing is
    offered for an empty model. *)
Theorem offered_label_differs (this : Component) (o : Opt) :
  In o (filteredOptions toLowerCase this) ->
  label o <> model (context this) /\ model (context this) <> "".
Proof.
  intros Hin.
  destruct (filteredOptions_inv this o Hin) as (opts & Ho & Hm & Hall & Hf).
  split; [| exact Hm]. apply Hall.
  rewrite Hf in Hin. now apply filter_In in Hin as [Hin _].
Qed.

(** X7.  Matching ignores case where the already-selected test does not: an
    option whose label equals the model up to case is offered, as long as no
    label equals the model exactly. *)
Theorem label_in_other_case_offered (this : Component) (opts : list Opt) (o : Opt) :
  options (context this) = OptionsArray opts ->
  model (context this) <> "" ->
  (forall o', In o' opts -> label o' <> model (context this)) ->
  In o opts ->
  toLowerCase (label o) = toLowerCase (model (context this)) ->
  In o (filteredOptions toLowerCase this).
Proof.
  intros Ho Hm Hall Hin Hcase.
  rewrite (filteredOptions_filter this opts Ho Hm Hall).
  apply filter_In. split; [exact Hin |].
  apply includes_app. exists "", "". rewrite Hcase, app_empty_r. reflexivity.
Qed.

(** X8.  Two models that differ in case only, neither empty nor the label of
    an option, are offered the same options. *)
Theorem same_matches_up_to_case (this that : Component) (opts : list Opt) :
  options (context this) = OptionsArray opts ->
  options (context that) = OptionsArray opts ->
  model (context this) <> "" ->
  model (context that) <> "" ->
  (forall o, In o opts -> label o <> model (context this)) ->
  (forall o, In o opts -> label o <> model (context that)) ->
  toLowerCase (model (context this)) = toLowerCase (model (context that)) ->
  filteredOptions toLowerCase this = filteredOptions toLowerCase that.
Proof.
  intros Ho Ho' Hm Hm' Hall Hall' Hcase.
  rewrite (filteredOptions_filter this opts Ho Hm Hall).
  rewrite (filteredOptions_filter that opts Ho' Hm' Hall').
  now rewrite Hcase.
Qed.

(** *** The selection *)

(** X9.  [selection] is an option exactly when [selectedIndex] lies in
    0 .. length-1, and it then is an entry of [filteredOptions]; for every
    other index it is [false]. *)
Theorem selection_defined_iff (this : Component) :
  (is_Some (selection toLowerCase this) <->
   0 <= selectedIndex this
        < Z.of_nat (List.length (filteredOptions toLowerCase this)))
  /\ (forall o, selection toLowerCase this = Some o ->
                In o (filteredOptions toLowerCase this)).
Proof.
  split.
  - split; [| apply selection_in_range].
    intros [o Ho]. apply selection_lookup in Ho as [Hpos Hl].
    apply lookup_lt_Some in Hl. lia.
  - intros o Ho. apply selection_lookup in Ho as [_ Hl].
    apply list_elem_of_In. now apply list_elem_of_lookup_2 in Hl.
Qed.

(** X10.  After the watcher has run, and in a fresh instance, the selection
    is the first match, [false] when there is none. *)
Theorem first_match_selected (this : Component) :
  selection toLowerCase (watch_model this) = head (filteredOptions toLowerCase this)
  /\ selection toLowerCase (data (context this))
     = head (filteredOptions toLowerCase this).
Proof.
  assert (E : forall c, selection toLowerCase {| context := c; selectedIndex := 0 |}
                        = head (filteredOptions toLowerCase
                                  {| context := c; selectedIndex := 0 |})).
  { intros c. unfold selection. cbn. now rewrite head_lookup. }
  unfold watch_model, data. rewrite E.
  split; f_equal; now apply filteredOptions_context.
Qed.

(** X11.  Hovering an entry of the list makes it the selection, and a click
    then assigns that entry's label to the model. *)
Theorem hover_then_click (this : Component) (index : nat) (o : Opt) :
  filteredOptions toLowerCase this !! index = Some o ->
  selection toLowerCase (mouseenter this index) = Some o
  /\ assign_selection toLowerCase (mouseenter this index)
     = Some (typed (context this) (label o)).
Proof.
  intros Hl.
  assert (Hs : selection toLowerCase (mouseenter this index) = Some o).
  { apply selection_lookup. cbn [mouseenter selectedIndex].
    split; [lia |]. rewrite Nat2Z.id.
    now rewrite (filteredOptions_context toLowerCase (mouseenter this index) this). }
  split; [exact Hs |]. unfold assign_selection. now rewrite Hs.
Qed.

(** X12.  Choosing the selection closes the list: the assignment changes the
    model (so the watcher runs), keeps the options, and in the new context
    nothing is offered, whatever the index. *)
Theorem assign_selection_closes (this : Component) (ctx : Context) (i : Z) :
  assign_selection toLowerCase this = Some ctx ->
  model ctx <> model (context this)
  /\ options ctx = options (context this)
  /\ filteredOptions toLowerCase {| context := ctx; selectedIndex := i |} = []
  /\ selection toLowerCase (watch_model {| context := ctx; selectedIndex := i |})
     = None.
Proof.
  unfold assign_selection.
  destruct (selection toLowerCase this) as [o |] eqn:Hs; [| discriminate].
  intros [= <-]. cbn [model options].
  apply selection_lookup in Hs as [_ Hl].
  apply list_elem_of_lookup_2, list_elem_of_In in Hl.
  destruct (filteredOptions_inv this o Hl) as (opts & Ho & Hm & Hall & Hf).
  assert (Hin : In o opts).
  { rewrite Hf in Hl. now apply filter_In in Hl as [Hin _]. }
  assert (Hnil : forall j, filteredOptions toLowerCase
            {| context := {| model := label o; options := options (context this) |};
               selectedIndex := j |} = []).
  { intros j. unfold filteredOptions. cbn [context model options]. rewrite Ho.
    destruct (negb _); [| reflexivity].
    destruct (List.find _ opts) eqn:Hfind; [reflexivity |].
    now elim (proj1 (find_label_None _ _) Hfind o Hin). }
  split; [now apply Hall |]. split; [reflexivity |]. split; [apply Hnil |].
  apply selection_out_of_range. right. unfold watch_model.
  cbn [context selectedIndex]. now rewrite Hnil.
Qed.

(** *** Moving the index *)

(** X13.  On a non-empty list and from an index in range, the arrow keys
    always land on an offered option: [selection] is an option after
    [increment] and after [decrement]. *)
Theorem arrows_keep_selection (this : Component) :
  filteredOptions toLowerCase this <> [] ->
  0 <= selectedIndex this
       < Z.of_nat (List.length (filteredOptions toLowerCase this)) ->
  is_Some (selection toLowerCase (increment toLowerCase this))
  /\ is_Some (selection toLowerCase (decrement toLowerCase this)).
Proof.
  intros _ Hr. split; apply selection_in_range.
  - rewrite (filteredOptions_context toLowerCase _ this (increment_context _ this)).
    rewrite increment_index. destruct (Z.ltb_spec (selectedIndex this + 1)
      (Z.of_nat (List.length (filteredOptions toLowerCase this)))); lia.
  - rewrite (filteredOptions_context toLowerCase _ this (decrement_context _ this)).
    rewrite decrement_index.
    destruct (Z.geb_spec (selectedIndex this - 1) 0); lia.
Qed.

(** X14.  On a non-empty list and from an index in range, [increment] and
    [decrement] undo each other. *)
Theorem increment_decrement_inverse (this : Component) :
  filteredOptions toLowerCase this <> [] ->
  0 <= selectedIndex this
       < Z.of_nat (List.length (filteredOptions toLowerCase this)) ->
  decrement toLowerCase (increment toLowerCase this) = this
  /\ increment toLowerCase (decrement toLowerCase this) = this.
Proof.
  intros _ Hr. split; apply component_ext.
  - now rewrite decrement_context, increment_context.
  - rewrite decrement_index.
    rewrite (filteredOptions_context toLowerCase _ this (increment_context _ this)).
    rewrite increment_index.
    destruct (Z.ltb_spec (selectedIndex this + 1)
                (Z.of_nat (List.length (filteredOptions toLowerCase this))));
      match goal with |- context [?a >=? 0] => destruct (Z.geb_spec a 0) end;
      lia.
  - now rewrite increment_context, decrement_context.
  - rewrite increment_index.
    rewrite (filteredOptions_context toLowerCase _ this (decrement_context _ this)).
    rewrite decrement_index.
    destruct (Z.geb_spec (selectedIndex this - 1) 0);
      match goal with |- context [?a <? ?b] => destruct (Z.ltb_spec a b) end;
      lia.
Qed.

(** X15.  On a non-empty list and from an index in range, the two methods
    step through the list cyclically: [increment] adds one modulo the
    length, [decrement] subtracts one modulo the length. *)
Theorem index_steps_modulo (this : Component) (length : Z) :
  length = Z.of_nat (List.length (filteredOptions toLowerCase this)) ->
  0 <= selectedIndex this < length ->
  selectedIndex (increment toLowerCase this) = (selectedIndex this + 1) mod length
  /\ selectedIndex (decrement toLowerCase this) = (selectedIndex this - 1) mod length.
Proof.
  intros -> Hr. rewrite increment_index, decrement_index. split.
  - destruct (Z.ltb_spec (selectedIndex this + 1)
                (Z.of_nat (List.length (filteredOptions toLowerCase this)))).
    + symmetry. apply Z.mod_small. lia.
    + replace (selectedIndex this + 1)
        with (Z.of_nat (List.length (filteredOptions toLowerCase this))) by lia.
      symmetry. apply Z_mod_same_full.
  - destruct (Z.geb_spec (selectedIndex this - 1) 0).
    + symmetry. apply Z.mod_small. lia.
    + replace (selectedIndex this - 1)
        with (Z.of_nat (List.length (filteredOptions toLowerCase this)) - 1
              + (-1) * Z.of_nat (List.length (filteredOptions toLowerCase this)))
        by lia.
      rewrite Z.mod_add by lia. symmetry. apply Z.mod_small. lia.
Qed.

(** X16.  With nothing offered there is no selection, Enter and click have
    no label to assign, and from index 0 [decrement] puts the index at -1
    while [increment] leaves it at 0. *)
Theorem empty_list_edge (this : Component) :
  filteredOptions toLowerCase this = [] ->
  selection toLowerCase this = None
  /\ assign_selection toLowerCase this = None
  /\ (selectedIndex this = 0 ->
      selectedIndex (decrement toLowerCase this) = -1
      /\ selectedIndex (increment toLowerCase this) = 0
      /\ selection toLowerCase (decrement toLowerCase this) = None).
Proof.
  intros He.
  assert (Hs : forall that, context that = context this ->
                            selection toLowerCase that = None).
  { intros that Hc. unfold selection.
    rewrite (filteredOptions_context toLowerCase that this Hc), He.
    now destruct (_ <? _). }
  split; [now apply Hs |]. split.
  - unfold assign_selection. now rewrite (Hs this eq_refl).
  - intros H0. rewrite decrement_index, increment_index, He, H0. cbn.
    split; [reflexivity | split; [reflexivity |]]. apply Hs, decrement_context.
Qed.

(** X17.  [increment] brings a stale index back: on a non-empty list, from
    any index from -1 upwards, also one past the end, the result lies in
    0 .. length-1. *)
Theorem increment_recovers (this : Component) :
  filteredOptions toLowerCase this <> [] ->
  -1 <= selectedIndex this ->
  0 <= selectedIndex (increment toLowerCase this)
       < Z.of_nat (List.length (filteredOptions toLowerCase this)).
Proof.
  intros Hne Hlow. rewrite increment_index.
  destruct (filteredOptions toLowerCase this) as [| o l]; [now elim Hne |].
  cbn [List.length] in *.
  destruct (Z.ltb_spec (selectedIndex this + 1) (Z.of_nat (S (List.length l))));
    lia.
Qed.

(** X18.  [decrement] does not clamp: from an index more than one past the
    end, and no larger than [Number.MAX_SAFE_INTEGER] so that the subtraction
    is exact, it only subtracts one, the index stays past the end and there
    is still no selection. *)
Theorem decrement_does_not_clamp (this : Component) :
  Z.of_nat (List.length (filteredOptions toLowerCase this)) + 1
    <= selectedIndex this ->
  selectedIndex this <= MAX_SAFE_INTEGER ->
  selectedIndex (decrement toLowerCase this) = selectedIndex this - 1
  /\ selection toLowerCase (decrement toLowerCase this) = None.
Proof.
  intros Hhigh _.
  assert (Hi : selectedIndex (decrement toLowerCase this) = selectedIndex this - 1).
  { rewrite decrement_index.
    destruct (Z.geb_spec (selectedIndex this - 1) 0); [reflexivity | lia]. }
  split; [exact Hi |]. apply selection_out_of_range. right.
  rewrite (filteredOptions_context toLowerCase _ this (decrement_context _ this)).
  lia.
Qed.

(** X19.  The index never drops below -1: [increment] and [decrement] keep
    it at -1 or above, and the watcher and a hover put it at 0 or above. *)
Theorem index_lower_bound (this : Component) (index : nat) :
  -1 <= selectedIndex this ->
  -1 <= selectedIndex (increment toLowerCase this)
  /\ -1 <= selectedIndex (decrement toLowerCase this)
  /\ 0 <= selectedIndex (watch_model this)
  /\ 0 <= selectedIndex (mouseenter this index).
Proof.
  intros Hlow. rewrite increment_index, decrement_index.
  cbn [watch_model mouseenter selectedIndex].
  destruct (Z.ltb_spec (selectedIndex this + 1)
              (Z.of_nat (List.length (filteredOptions toLowerCase this))));
    destruct (Z.geb_spec (selectedIndex this - 1) 0);
    (split; [| split; [| split]]); lia.
Qed.

End ComponentProps.

(** *** The usage example of the guide, run with ASCII lower-casing *)

Lemma users_label_differs (m : string) :
  m <> "Jon Doe" -> m <> "Jane Roe" -> m <> "Bob Foe" -> m <> "Ben Cho" ->
  forall o, In o users -> label o <> m.
Proof.
  intros H1 H2 H3 H4 o [<- | [<- | [<- | [<- | []]]]]; cbn; congruence.
Qed.

(** Closes [a <= i < b] once both bounds compute. *)
Ltac in_range := vm_compute; split; [discriminate | reflexivity].

Lemma filteredOptions_sublist_witness :
  sublist (filteredOptions ascii_toLowerCase (searching "OE" 0)) users
  /\ (List.length (filteredOptions ascii_toLowerCase (searching "OE" 0))
      <= List.length users)%nat.
Proof.
  apply (filteredOptions_sublist ascii_toLowerCase (searching "OE" 0) users).
  reflexivity.
Defined.

Lemma offered_label_differs_witness :
  label (mkOpt (VNum 2) "Jane Roe") <> model (context (searching "OE" 0))
  /\ model (context (searching "OE" 0)) <> "".
Proof.
  apply (offered_label_differs ascii_toLowerCase (searching "OE" 0)).
  cbn. right. left. reflexivity.
Defined.

Lemma label_in_other_case_offered_witness :
  In (mkOpt (VNum 3) "Bob Foe")
     (filteredOptions ascii_toLowerCase (searching "bob foe" 0)).
Proof.
  apply (label_in_other_case_offered ascii_toLowerCase (searching "bob foe" 0) users).
  - reflexivity.
  - discriminate.
  - apply users_label_differs; discriminate.
  - cbn. tauto.
  - reflexivity.
Defined.

Lemma same_matches_up_to_case_witness :
  filteredOptions ascii_toLowerCase (searching "OE" 0)
  = filteredOptions ascii_toLowerCase (searching "oe" 2).
Proof.
  apply (same_matches_up_to_case ascii_toLowerCase _ _ users);
    try reflexivity; try discriminate;
    apply users_label_differs; discriminate.
Defined.

Lemma hover_then_click_witness :
  selection ascii_toLowerCase (mouseenter (searching "OE" 0) 1)
  = Some (mkOpt (VNum 2) "Jane Roe")
  /\ assign_selection ascii_toLowerCase (mouseenter (searching "OE" 0) 1)
     = Some (typed (context (searching "OE" 0)) "Jane Roe").
Proof.
  apply (hover_then_click ascii_toLowerCase (searching "OE" 0) 1
           (mkOpt (VNum 2) "Jane Roe")).
  reflexivity.
Defined.

Lemma assign_selection_closes_witness :
  model (typed (context (searching "OE" 0)) "Jon Doe")
    <> model (context (searching "OE" 0))
  /\ options (typed (context (searching "OE" 0)) "Jon Doe")
     = options (context (searching "OE" 0))
  /\ filteredOptions ascii_toLowerCase (searching "Jon Doe" 0) = []
  /\ selection ascii_toLowerCase (watch_model (searching "Jon Doe" 0)) = None.
Proof.
  apply (assign_selection_closes ascii_toLowerCase (searching "OE" 0)
           (typed (context (searching "OE" 0)) "Jon Doe") 0).
  reflexivity.
Defined.

Lemma arrows_keep_selection_witness :
  is_Some (selection ascii_toLowerCase
             (increment ascii_toLowerCase (searching "OE" 2)))
  /\ is_Some (selection ascii_toLowerCase
                (decrement ascii_toLowerCase (searching "OE" 2))).
Proof.
  apply (arrows_keep_selection ascii_toLowerCase (searching "OE" 2));
    [discriminate | in_range].
Defined.

Lemma increment_decrement_inverse_witness :
  decrement ascii_toLowerCase (increment ascii_toLowerCase (searching "OE" 2))
  = searching "OE" 2
  /\ increment ascii_toLowerCase (decrement ascii_toLowerCase (searching "OE" 2))
     = searching "OE" 2.
Proof.
  apply (increment_decrement_inverse ascii_toLowerCase (searching "OE" 2));
    [discriminate | in_range].
Defined.

Lemma index_steps_modulo_witness :
  selectedIndex (increment ascii_toLowerCase (searching "OE" 2)) = (2 + 1) mod 3
  /\ selectedIndex (decrement ascii_toLowerCase (searching "OE" 0)) = (0 - 1) mod 3.
Proof.
  split.
  - apply (index_steps_modulo ascii_toLowerCase (searching "OE" 2) 3);
      [reflexivity | cbn; lia].
  - apply (index_steps_modulo ascii_toLowerCase (searching "OE" 0) 3);
      [reflexivity | cbn; lia].
Defined.

Lemma empty_list_edge_witness :
  selection ascii_toLowerCase (searching "xyz" 0) = None
  /\ assign_selection ascii_toLowerCase (searching "xyz" 0) = None
  /\ selectedIndex (decrement ascii_toLowerCase (searching "xyz" 0)) = -1.
Proof.
  destruct (empty_list_edge ascii_toLowerCase (searching "xyz" 0) eq_refl)
    as (Hs & Ha & Hi).
  split; [exact Hs | split; [exact Ha |]]. apply Hi. reflexivity.
Defined.

Lemma increment_recovers_witness :
  0 <= selectedIndex (increment ascii_toLowerCase (searching "OE" 7))
       < Z.of_nat (List.length (filteredOptions ascii_toLowerCase (searching "OE" 7))).
Proof.
  apply (increment_recovers ascii_toLowerCase (searching "OE" 7));
    [discriminate | cbn; lia].
Defined.

Lemma decrement_does_not_clamp_witness :
  selectedIndex (decrement ascii_toLowerCase (searching "OE" 7)) = 7 - 1
  /\ selection ascii_toLowerCase (decrement ascii_toLowerCase (searching "OE" 7))
     = None.
Proof.
  apply (decrement_does_not_clamp ascii_toLowerCase (searching "OE" 7));
    vm_compute; discriminate.
Defined.

Lemma index_lower_bound_witness :
  -1 <= selectedIndex (increment ascii_toLowerCase (searching "xyz" (-1)))
  /\ -1 <= selectedIndex (decrement ascii_toLowerCase (searching "xyz" (-1)))
  /\ 0 <= selectedIndex (watch_model (searching "xyz" (-1)))
  /\ 0 <= selectedIndex (mouseenter (searching "xyz" (-1)) 0).
Proof.
  apply (index_lower_bound ascii_toLowerCase (searching "xyz" (-1)) 0).
  cbn. lia.
Defined.

End ComponentSpec.
